(** * scripts/convert_model.py: checkpoint to ONNX conversion

    A shallow embedding of [convert_to_onnx] and of the command-line entry
    point of [scripts/convert_model.py].

    The script is a straight line of calls into the Python runtime and into
    torch.  Its own logic (the [isinstance]/subscript unwrapping, the
    argument lists, the [len(sys.argv)] guard, the order of the calls) is
    transcribed statement by statement into a state-and-exception monad over
    a [world] holding the file system, standard output, the random generator
    and a chronological record of the calls made.  What torch computes
    (unpickling a file, whether a tensor of some size can be drawn, tracing
    a module into a graph with all it writes and prints) stays abstract: it
    is the [TorchRuntime] interface, and every theorem holds for every
    implementation of it.

    The file system is seen through paths: [fs w !! p] is the content found
    under the path [p].  Several paths can name one file, and a write to
    that file then shows under each of them; this is why what an export
    wrote is a map from paths to contents and not a single file. *)

From Stdlib Require Import ZArith.
From Stdlib.Strings Require Import Byte.
From stdpp Require Import gmap strings list fin_maps.

Set Warnings "-register-all".

Local Open Scope Z_scope.
Local Open Scope string_scope.

(** ** Python values *)

(** A [torch.nn.Module]: its class name, the [training] flag and the named
    sub-modules of [_modules], in registration order. *)
Inductive nn_module : Type :=
| NNModule (cls : string) (training : bool) (children : list (string * nn_module)).

(** The values a checkpoint can deserialize to.  Dictionaries are keyed by
    strings: the script only ever looks up the string ['model'].
    [PyDict] is a [dict] whose subscript raises on a missing key (the
    built-in type, [OrderedDict]).  [PyDefaultDict] is a
    [collections.defaultdict], a subclass of [dict] whose subscript calls
    [default_factory] on a missing key; [factory] is what that call returns,
    [None] when the dictionary has no factory.  [PyMappingProxy] stands for
    a [collections.abc.Mapping] that is not a subclass of [dict] (such as
    [types.MappingProxyType]). *)
Inductive pyobj : Type :=
| PyNone
| PyInt (z : Z)
| PyStr (s : string)
| PyDict (items : gmap string pyobj)
| PyMappingProxy (items : gmap string pyobj)
| PyModule (m : nn_module)
| PyDefaultDict (factory : option pyobj) (items : gmap string pyobj).

Inductive pyexc : Type :=
| KeyError (key : string)
| AttributeError (attr : string)
| TypeError (msg : string)
| IndexError (msg : string)
| FileNotFoundError (path : string)
| OSError (path : string)
| UnpicklingError (msg : string)
| RuntimeError (msg : string)
| SystemExit (code : Z).

Inductive outcome (A : Type) : Type :=
| Return (a : A)
| Raise (e : pyexc).
Arguments Return {A} a.
Arguments Raise {A} e.

(** ** Tensors and export options *)

(** How torch fills a new tensor: [torch.zeros] and the like, [torch.rand],
    [torch.randn]. *)
Inductive distribution : Type :=
| Constant
| Uniform
| StandardNormal.

(** A tensor is known by its shape and by how it was filled: the
    distribution and the index of the draw from the global generator.  The
    floating-point entries themselves are never inspected by the script. *)
Record tensor : Type := Tensor {
  shape : list Z;
  drawn_from : distribution;
  draw : nat
}.

(** The keyword arguments of [torch.onnx.export]. *)
Record export_opts : Type := ExportOpts {
  opset_version : Z;
  input_names : list string;
  output_names : list string;
  dynamic_axes : gmap string (gmap Z string)
}.

(** What a call of [torch.onnx.export] does before it returns or raises:
    [written] holds, for every path under which a file it wrote is found,
    the new content of that file (the destination, what else names the same
    file, side files such as external weights; a truncated file when the
    call raised), and [printed] the lines it put on standard output. *)
Inductive export_result : Type :=
| Exported (written : gmap string (list byte)) (printed : list string)
| ExportFailed (e : pyexc) (written : gmap string (list byte)) (printed : list string).

(** ** The world *)

Inductive call : Type :=
| CallLoad (path map_location : string)
| CallEval (self : pyobj)
| CallRandn (size : list Z)
| CallExport (model : pyobj) (args : tensor) (f : string) (opts : export_opts)
| CallPrint (line : string)
| CallExit (code : Z).

Record world : Type := World {
  fs : gmap string (list byte);
  stdout : list string;
  draws : nat;
  calls : list call
}.

Definition record_call (c : call) (w : world) : world :=
  {| fs := fs w; stdout := stdout w; draws := draws w; calls := calls w ++ [c] |}.

Definition write_files (written : gmap string (list byte)) (w : world) : world :=
  {| fs := written ∪ fs w; stdout := stdout w;
     draws := draws w; calls := calls w |}.

Definition write_lines (lines : list string) (w : world) : world :=
  {| fs := fs w; stdout := stdout w ++ lines; draws := draws w; calls := calls w |}.

Definition write_line (line : string) (w : world) : world :=
  {| fs := fs w; stdout := stdout w ++ [line]; draws := draws w; calls := calls w |}.

Definition next_draw (w : world) : world :=
  {| fs := fs w; stdout := stdout w; draws := S (draws w); calls := calls w |}.

(** ** The monad of Python statements *)

Definition Py (A : Type) : Type := world -> outcome A * world.

Definition ret {A} (a : A) : Py A := fun w => (Return a, w).

Definition raise {A} (e : pyexc) : Py A := fun w => (Raise e, w).

Definition bind {A B} (m : Py A) (k : A -> Py B) : Py B :=
  fun w =>
    match m w with
    | (Return a, w') => k a w'
    | (Raise e, w') => (Raise e, w')
    end.

Definition lift {A} (o : outcome A) : Py A := fun w => (o, w).

Declare Scope py_scope.
Delimit Scope py_scope with py.
Notation "x <- m ;; k" := (bind m (fun x => k))
  (at level 100, m at next level, right associativity) : py_scope.
Notation "m ;; k" := (bind m (fun _ => k))
  (at level 100, right associativity) : py_scope.
Local Open Scope py_scope.

(** ** Built-in operations *)

(** [isinstance(obj, dict)]. *)
Definition isinstance_dict (obj : pyobj) : bool :=
  match obj with
  | PyDict _ | PyDefaultDict _ _ => true
  | _ => false
  end.

(** Whether [obj] offers the key-value mapping interface. *)
Definition is_mapping (obj : pyobj) : bool :=
  match obj with
  | PyDict _ | PyMappingProxy _ | PyDefaultDict _ _ => true
  | PyModule (NNModule cls _ _) => bool_decide (cls = "ModuleDict")
  | _ => false
  end.

Fixpoint assoc (key : string) (l : list (string * nn_module)) : option nn_module :=
  match l with
  | [] => None
  | (k, v) :: l' => if bool_decide (k = key) then Some v else assoc key l'
  end.

(** [obj[key]]. *)
Definition getitem (obj : pyobj) (key : string) : outcome pyobj :=
  match obj with
  | PyDict items | PyMappingProxy items =>
      match items !! key with
      | Some v => Return v
      | None => Raise (KeyError key)
      end
  | PyModule (NNModule cls _ children) =>
      if bool_decide (cls = "ModuleDict") then
        match assoc key children with
        | Some c => Return (PyModule c)
        | None => Raise (KeyError key)
        end
      else Raise (TypeError "object is not subscriptable")
  | PyDefaultDict factory items =>
      match items !! key with
      | Some v => Return v
      | None =>
          match factory with
          | Some v => Return v
          | None => Raise (KeyError key)
          end
      end
  | PyStr _ => Raise (TypeError "string indices must be integers")
  | PyNone | PyInt _ => Raise (TypeError "object is not subscriptable")
  end.

(** The entries of a [dict] instance, whatever its subclass. *)
Definition dict_entries (obj : pyobj) : option (gmap string pyobj) :=
  match obj with
  | PyDict items | PyDefaultDict _ items => Some items
  | _ => None
  end.


(** [Module.train(mode)]: sets the flag on the module and on every
    descendant. *)
Fixpoint module_train (mode : bool) (m : nn_module) : nn_module :=
  match m with
  | NNModule cls _ children =>
      NNModule cls mode (map (fun nc => (nc.1, module_train mode nc.2)) children)
  end.


(** [obj.eval()]: only modules have the method; the object is updated in
    place, which state passing renders as the updated object. *)
Definition eval_method (obj : pyobj) : outcome pyobj :=
  match obj with
  | PyModule m => Return (PyModule (module_train false m))
  | _ => Raise (AttributeError "eval")
  end.

(** [print(line)]. *)
Definition print (line : string) : Py unit :=
  fun w => (Return tt, write_line line (record_call (CallPrint line) w)).

(** [sys.exit(code)]. *)
Definition sys_exit (code : Z) : Py unit :=
  fun w => (Raise (SystemExit code), record_call (CallExit code) w).

(** [argv[i]]. *)
Definition argv_get (argv : list string) (i : nat) : Py string :=
  match argv !! i with
  | Some a => ret a
  | None => raise (IndexError "list index out of range")
  end.


(** ** torch *)

(** What torch does and the script cannot see into.
    [unpickle map_location content] is what [torch.load] makes of the bytes
    of a readable file.  [randn_raises size] is the exception [torch.randn]
    raises for a size without negative entries ([None]: it returns): a size
    too large for the machine, an entry beyond 64 bits.
    [trace_export files f model args opts] is what [torch.onnx.export]
    does when asked to write to [f] with the files [files] in place. *)
Class TorchRuntime : Type := {
  unpickle : string -> list byte -> outcome pyobj;
  randn_raises : list Z -> option pyexc;
  trace_export :
    gmap string (list byte) -> string -> pyobj -> tensor -> export_opts -> export_result
}.

Section Converter.

Context {torch : TorchRuntime}.

(** [torch.load(path, map_location=...)]: reads, never writes. *)
Definition torch_load (path map_location : string) : Py pyobj :=
  fun w =>
    let w' := record_call (CallLoad path map_location) w in
    match fs w !! path with
    | Some content => (unpickle map_location content, w')
    | None => (Raise (FileNotFoundError path), w')
    end.

(** [model.eval()]. *)
Definition call_eval (model : pyobj) : Py pyobj :=
  fun w => (eval_method model, record_call (CallEval model) w).

(** [torch.randn( *size )]: raises on a negative entry and whenever the
    runtime says so; otherwise a fresh draw of the requested shape. *)
Definition torch_randn (size : list Z) : Py tensor :=
  fun w =>
    let w' := record_call (CallRandn size) w in
    if forallb (Z.leb 0) size then
      match randn_raises size with
      | Some e => (Raise e, w')
      | None => (Return (Tensor size StandardNormal (draws w)), next_draw w')
      end
    else
      (Raise (RuntimeError "Trying to create tensor with negative dimension"), w').

(** [torch.onnx.export(model, args, f, **opts)]. *)
Definition onnx_export (model : pyobj) (args : tensor) (f : string)
    (opts : export_opts) : Py unit :=
  fun w =>
    let w' := record_call (CallExport model args f opts) w in
    match trace_export (fs w) f model args opts with
    | Exported written printed =>
        (Return tt, write_lines printed (write_files written w'))
    | ExportFailed e written printed =>
        (Raise e, write_lines printed (write_files written w'))
    end.

(** ** The script *)

(** The keyword arguments at lines 31-37. *)
Definition export_options : export_opts :=
  {| opset_version := 12;
     input_names := ["images"];
     output_names := ["output"];
     dynamic_axes :=
       {[ "images" := {[ 0 := "batch" ]}; "output" := {[ 0 := "batch" ]} ]} |}.

(** Line 18: [model['model'] if isinstance(model, dict) else model]. *)
Definition select_model (model : pyobj) : outcome pyobj :=
  if isinstance_dict model then getitem model "model" else Return model.

(** The dummy input of line 24. *)
Definition dummy_size (img_size : Z) : list Z := [1; 3; img_size; img_size].

Definition success_message (onnx_output_path : string) : string :=
  "Model converted successfully: " ++ onnx_output_path.

(** [convert_to_onnx(pt_model_path, onnx_output_path, img_size=640)];
    [img_size = None] is a call that leaves the third argument out. *)
Definition convert_to_onnx (pt_model_path onnx_output_path : string)
    (img_size : option Z) : Py pyobj :=
  let img_size := default 640 img_size in
  model <- torch_load pt_model_path "cpu" ;;
  model <- lift (select_model model) ;;
  model <- call_eval model ;;
  dummy_input <- torch_randn (dummy_size img_size) ;;
  onnx_export model dummy_input onnx_output_path export_options ;;
  print (success_message onnx_output_path) ;;
  ret PyNone.

(** Lines 21-40, the part of [convert_to_onnx] that follows the choice of
    [model]; [convert_to_onnx_eq] below relates the two. *)
Definition export_steps (model : pyobj) (onnx_output_path : string)
    (img_size : Z) : Py pyobj :=
  model <- call_eval model ;;
  dummy_input <- torch_randn (dummy_size img_size) ;;
  onnx_export model dummy_input onnx_output_path export_options ;;
  print (success_message onnx_output_path) ;;
  ret PyNone.

Definition usage : string :=
  "Usage: python convert_model.py <input.pt> <output.onnx>".

(** The [if __name__ == "__main__":] block, given [sys.argv]. *)
Definition main (argv : list string) : Py pyobj :=
  (if (length argv <? 3)%nat then print usage ;; sys_exit 1 else ret tt) ;;
  a1 <- argv_get argv 1 ;;
  a2 <- argv_get argv 2 ;;
  convert_to_onnx a1 a2 None.

(** ** The runs of [convert_to_onnx]

    [run p o n w r w'] lists the eight ways a call with checkpoint path
    [p], output path [o] and image size [n] can go from the world [w]: the
    line at which it stops, the outcome [r] and the world [w'] it leaves.
    [convert_to_onnx_run] below shows that every call is one of them. *)
Inductive run (p o : string) (n : Z) (w : world) : outcome pyobj -> world -> Prop :=
| run_missing :
    fs w !! p = None ->
    run p o n w (Raise (FileNotFoundError p))
      (World (fs w) (stdout w) (draws w) (calls w ++ [CallLoad p "cpu"]))
| run_unreadable content e :
    fs w !! p = Some content ->
    unpickle "cpu" content = Raise e ->
    run p o n w (Raise e)
      (World (fs w) (stdout w) (draws w) (calls w ++ [CallLoad p "cpu"]))
| run_unwrap_fails content obj e :
    fs w !! p = Some content ->
    unpickle "cpu" content = Return obj ->
    select_model obj = Raise e ->
    run p o n w (Raise e)
      (World (fs w) (stdout w) (draws w) (calls w ++ [CallLoad p "cpu"]))
| run_eval_fails content obj m0 e :
    fs w !! p = Some content ->
    unpickle "cpu" content = Return obj ->
    select_model obj = Return m0 ->
    eval_method m0 = Raise e ->
    run p o n w (Raise e)
      (World (fs w) (stdout w) (draws w)
         (calls w ++ [CallLoad p "cpu"; CallEval m0]))
| run_randn_fails content obj m0 m1 :
    fs w !! p = Some content ->
    unpickle "cpu" content = Return obj ->
    select_model obj = Return m0 ->
    eval_method m0 = Return m1 ->
    n < 0 ->
    run p o n w (Raise (RuntimeError "Trying to create tensor with negative dimension"))
      (World (fs w) (stdout w) (draws w)
         (calls w ++ [CallLoad p "cpu"; CallEval m0; CallRandn (dummy_size n)]))
| run_randn_raises content obj m0 m1 e :
    fs w !! p = Some content ->
    unpickle "cpu" content = Return obj ->
    select_model obj = Return m0 ->
    eval_method m0 = Return m1 ->
    0 <= n ->
    randn_raises (dummy_size n) = Some e ->
    run p o n w (Raise e)
      (World (fs w) (stdout w) (draws w)
         (calls w ++ [CallLoad p "cpu"; CallEval m0; CallRandn (dummy_size n)]))
| run_export_fails content obj m0 m1 e written printed :
    fs w !! p = Some content ->
    unpickle "cpu" content = Return obj ->
    select_model obj = Return m0 ->
    eval_method m0 = Return m1 ->
    0 <= n ->
    randn_raises (dummy_size n) = None ->
    trace_export (fs w) o m1 (Tensor (dummy_size n) StandardNormal (draws w))
      export_options = ExportFailed e written printed ->
    run p o n w (Raise e)
      (World (written ∪ fs w) (stdout w ++ printed) (S (draws w))
         (calls w ++ [CallLoad p "cpu"; CallEval m0; CallRandn (dummy_size n);
                      CallExport m1 (Tensor (dummy_size n) StandardNormal (draws w))
                        o export_options]))
| run_returns content obj m0 m1 written printed :
    fs w !! p = Some content ->
    unpickle "cpu" content = Return obj ->
    select_model obj = Return m0 ->
    eval_method m0 = Return m1 ->
    0 <= n ->
    randn_raises (dummy_size n) = None ->
    trace_export (fs w) o m1 (Tensor (dummy_size n) StandardNormal (draws w))
      export_options = Exported written printed ->
    run p o n w (Return PyNone)
      (World (written ∪ fs w) (stdout w ++ printed ++ [success_message o])
         (S (draws w))
         (calls w ++ [CallLoad p "cpu"; CallEval m0; CallRandn (dummy_size n);
                      CallExport m1 (Tensor (dummy_size n) StandardNormal (draws w))
                        o export_options;
                      CallPrint (success_message o)])).

End Converter.

(** ** A small runtime to run the script on *)

Module Demo.

Definition yolo : nn_module :=
  NNModule "DetectionModel" true
    [("0", NNModule "Conv" true []); ("1", NNModule "Detect" true [])].

Definition bare_pt : list byte := [x01].
Definition wrapped_pt : list byte := [x02].
Definition headless_pt : list byte := [x03].
Definition proxy_pt : list byte := [x04].
Definition module_dict_pt : list byte := [x05].
Definition untraceable_pt : list byte := [x06].

Definition truncated_graph : list byte := [x4f; x4e].

Definition onnx_graph : list byte := [x4f; x4e; x4e; x58].

Definition wrapped : pyobj :=
  PyDict {[ "model" := PyModule yolo; "optimizer" := PyStr "sgd" ]}.

Definition headless : gmap string pyobj := {[ "optimizer" := PyStr "sgd" ]}.

Definition module_dict : pyobj :=
  PyModule (NNModule "ModuleDict" true [("model", yolo)]).

Definition grid_sampler : nn_module := NNModule "GridSampler" true [].

(** Six recognisable checkpoints; anything else does not unpickle.
    [torch.randn] always returns.  Tracing succeeds on modules and writes
    the graph to the destination, except on the module of class
    [GridSampler], where it stops after two bytes were written. *)
Definition demo_torch : TorchRuntime :=
  {| unpickle := fun _ content =>
       match content with
       | [x01] => Return (PyModule yolo)
       | [x02] => Return wrapped
       | [x03] => Return (PyDict headless)
       | [x04] => Return (PyMappingProxy {[ "model" := PyModule yolo ]})
       | [x05] => Return module_dict
       | [x06] => Return (PyModule grid_sampler)
       | _ => Raise (UnpicklingError "invalid load key")
       end;
     randn_raises := fun _ => None;
     trace_export := fun _ f model _ _ =>
       match model with
       | PyModule (NNModule cls _ _) =>
           if bool_decide (cls = "GridSampler") then
             ExportFailed (RuntimeError "unsupported operator")
               {[ f := truncated_graph ]} []
           else Exported {[ f := onnx_graph ]} []
       | _ => ExportFailed (RuntimeError "not a module") ∅ []
       end |}.

Definition disk : world :=
  {| fs := {[ "model.pt" := bare_pt; "ckpt.pt" := wrapped_pt;
              "headless.pt" := headless_pt; "proxy.pt" := proxy_pt;
              "dict.pt" := module_dict_pt; "grid.pt" := untraceable_pt ]};
     stdout := []; draws := 0; calls := [] |}.

End Demo.


(** ** Reading the record of calls *)

Definition is_export (c : call) : bool :=
  match c with
  | CallExport _ _ _ _ => true
  | _ => false
  end.

Definition is_load (c : call) : bool :=
  match c with
  | CallLoad _ _ => true
  | _ => false
  end.

Definition is_print (c : call) : bool :=
  match c with
  | CallPrint _ => true
  | _ => false
  end.

Definition is_exit (c : call) : bool :=
  match c with
  | CallExit _ => true
  | _ => false
  end.


(** The calls made between [w] and a later world [w']. *)
Definition calls_since (w w' : world) : list call :=
  drop (length (calls w)) (calls w').

(** ** Further vocabulary for the record of calls *)


Definition export_printed (r : export_result) : list string :=
  match r with
  | Exported _ printed | ExportFailed _ _ printed => printed
  end.

(** [isinstance(obj, torch.nn.Module)]. *)
Definition is_module (obj : pyobj) : bool :=
  match obj with
  | PyModule _ => true
  | _ => false
  end.

(** Whether a module and every descendant have [training = False]. *)
Fixpoint all_inference (m : nn_module) : bool :=
  match m with
  | NNModule _ training children =>
      negb training && forallb (fun nc => all_inference nc.2) children
  end.

(** The calls of lines 17, 21, 24, 27 and 40, in the order of the source,
    for a checkpoint path [p], an output path [o], an image size [n], the
    generator at draw [d], the chosen object [m0] and what [eval] made of
    it, [m1]. *)
Definition script_calls (p o : string) (n : Z) (d : nat) (m0 m1 : pyobj) : list call :=
  [CallLoad p "cpu";
   CallEval m0;
   CallRandn (dummy_size n);
   CallExport m1 (Tensor (dummy_size n) StandardNormal d) o export_options;
   CallPrint (success_message o)].

(** A second runtime, for the shapes of checkpoint that end badly. *)
Module Edge.

Definition backbone : nn_module :=
  NNModule "Sequential" true
    [("conv", NNModule "Conv2d" true []);
     ("head", NNModule "Sequential" true [("fc", NNModule "Linear" true [])])].

Definition nested : pyobj :=
  PyDict {[ "model" := PyDict {[ "model" := PyModule backbone ]} ]}.

Definition stale_graph : list byte := [x00; x00; x00].
Definition fresh_graph : list byte := [x08; x07].

(** [x0a] is a bare module, [x0b] a dictionary whose ["model"] entry is
    itself a dictionary, [x0c] an integer.  [torch.randn] always returns
    and tracing always succeeds. *)
Definition edge_torch : TorchRuntime :=
  {| unpickle := fun _ content =>
       match content with
       | [x0a] => Return (PyModule backbone)
       | [x0b] => Return nested
       | [x0c] => Return (PyInt 7)
       | _ => Raise (UnpicklingError "invalid load key")
       end;
     randn_raises := fun _ => None;
     trace_export := fun _ f _ _ _ => Exported {[ f := fresh_graph ]} [] |}.

Definition disk : world :=
  {| fs := {[ "net.pt" := [x0a]; "nested.pt" := [x0b]; "seven.pt" := [x0c];
              "net.onnx" := stale_graph ]};
     stdout := ["earlier output"]; draws := 4; calls := [CallPrint "earlier output"] |}.

End Edge.

(** A third runtime, for what the machine and the library add: a
    [defaultdict] checkpoint, a [torch.randn] that runs out of memory, an
    exporter that reports on standard output and a file known under two
    paths. *)
Module Corner.

Definition net : nn_module := NNModule "Net" true [].

(** [defaultdict(Net, epoch=3)]: no ["model"] entry, and a factory that
    builds a fresh module. *)
Definition lazy_checkpoint : pyobj :=
  PyDefaultDict (Some (PyModule net)) {[ "epoch" := PyInt 3 ]}.

Definition graph : list byte := [x08; x01].

(** The path [f] without a leading ["./"]: both name the same file. *)
Definition plain (f : string) : string :=
  if String.prefix "./" f then String.substring 2 (String.length f - 2) f else f.

(** [x10] is a bare module, [x11] the [defaultdict].  [torch.randn] runs
    out of memory from 2^31 on.  The exporter announces itself on standard
    output and writes the graph to its destination, which shows under the
    destination path and under the plain path of the same file. *)
Definition corner_torch : TorchRuntime :=
  {| unpickle := fun _ content =>
       match content with
       | [x10] => Return (PyModule net)
       | [x11] => Return lazy_checkpoint
       | _ => Raise (UnpicklingError "invalid load key")
       end;
     randn_raises := fun size =>
       if forallb (fun d => d <? 2 ^ 31)%Z size then None
       else Some (RuntimeError "not enough memory");
     trace_export := fun _ f _ _ _ =>
       Exported {[ f := graph; plain f := graph ]} ["exporting to ONNX"] |}.

Definition disk : world :=
  {| fs := {[ "net.pt" := [x10]; "lazy.pt" := [x11] ]};
     stdout := []; draws := 0; calls := [] |}.

End Corner.

(** * Properties *)

Section ConverterFacts.

Context {torch : TorchRuntime}.

Implicit Types (p o : string) (w : world) (e : pyexc) (obj model : pyobj).

Lemma calls_since_app w w' (l : list call) :
  calls w' = (calls w ++ l)%list -> calls_since w w' = l.
Proof. unfold calls_since. intros ->. by rewrite drop_app_length. Qed.

Lemma convert_to_onnx_eq p o s w :
  convert_to_onnx p o s w =
  (model <- torch_load p "cpu" ;;
   model <- lift (select_model model) ;;
   export_steps model o (default 640 s)) w.
Proof. reflexivity. Qed.

Lemma torch_load_world p ml w r w1 :
  torch_load p ml w = (r, w1) -> w1 = record_call (CallLoad p ml) w.
Proof. unfold torch_load. destruct (fs w !! p); congruence. Qed.

Lemma torch_load_inv p ml w obj w1 :
  torch_load p ml w = (Return obj, w1) ->
  exists content, fs w !! p = Some content /\ unpickle ml content = Return obj.
Proof.
  unfold torch_load. destruct (fs w !! p) as [content|]; intros H; [|congruence].
  exists content. split; congruence.
Qed.

(** An exception of [torch.load] ends the call. *)
Lemma convert_load_raises p o s w e w1 :
  torch_load p "cpu" w = (Raise e, w1) -> convert_to_onnx p o s w = (Raise e, w1).
Proof. intros H. rewrite convert_to_onnx_eq. unfold bind. by rewrite H. Qed.

(** An exception of the subscript ends the call. *)
Lemma convert_select_raises p o s w obj e w1 :
  torch_load p "cpu" w = (Return obj, w1) ->
  select_model obj = Raise e ->
  convert_to_onnx p o s w = (Raise e, w1).
Proof.
  intros H Hs. rewrite convert_to_onnx_eq. unfold bind, lift. by rewrite H, Hs.
Qed.

(** Once the model is chosen, the rest of the call is [export_steps]. *)
Lemma convert_selected p o s w obj model w1 :
  torch_load p "cpu" w = (Return obj, w1) ->
  select_model obj = Return model ->
  convert_to_onnx p o s w = export_steps model o (default 640 s) w1.
Proof.
  intros H Hs. rewrite convert_to_onnx_eq. unfold bind, lift. by rewrite H, Hs.
Qed.

Lemma export_steps_eval_raises model o n w e :
  eval_method model = Raise e ->
  export_steps model o n w = (Raise e, record_call (CallEval model) w).
Proof. intros H. unfold export_steps, bind, call_eval. by rewrite H. Qed.

Lemma export_steps_evaluated model m1 o n w :
  eval_method model = Return m1 ->
  export_steps model o n w =
  (dummy_input <- torch_randn (dummy_size n) ;;
   onnx_export m1 dummy_input o export_options ;;
   print (success_message o) ;;
   ret PyNone) (record_call (CallEval model) w).
Proof. intros H. unfold export_steps, bind at 1, call_eval. by rewrite H. Qed.

Lemma dummy_size_nonneg n : forallb (Z.leb 0) (dummy_size n) = Z.leb 0 n.
Proof. unfold dummy_size. simpl. destruct (Z.leb 0 n); reflexivity. Qed.

Lemma torch_randn_dummy n w :
  0 <= n ->
  randn_raises (dummy_size n) = None ->
  torch_randn (dummy_size n) w =
  (Return (Tensor (dummy_size n) StandardNormal (draws w)),
   next_draw (record_call (CallRandn (dummy_size n)) w)).
Proof.
  intros Hn Hr. unfold torch_randn. rewrite dummy_size_nonneg, Hr.
  by destruct (Z.leb_spec 0 n); [|lia].
Qed.

(** Unfolds a run into the calls it is made of. *)
Ltac run_script :=
  unfold convert_to_onnx, export_steps, bind, lift, torch_load, call_eval,
    torch_randn, onnx_export, print, ret;
  cbn [default fst snd].

(** Two facts about the same lookup or the same call of torch agree. *)
Ltac same_run :=
  repeat match goal with
         | H1 : ?x = ?a, H2 : ?x = ?b |- _ => rewrite H1 in H2; simplify_eq
         end.

(** Every call of [convert_to_onnx] is one of the eight runs. *)
Lemma convert_to_onnx_run p o s w :
  run p o (default 640 s) w
    (convert_to_onnx p o s w).1 (convert_to_onnx p o s w).2.
Proof.
  run_script.
  destruct (fs w !! p) as [content|] eqn:Hfs; [|by apply run_missing].
  destruct (unpickle "cpu" content) as [obj|] eqn:Hun;
    [|by eapply run_unreadable].
  destruct (select_model obj) as [m0|] eqn:Hsel;
    [|by eapply run_unwrap_fails].
  destruct (eval_method m0) as [m1|] eqn:Hev; cbn [fst snd].
  2: { unfold record_call; cbn. rewrite <- !app_assoc. by eapply run_eval_fails. }
  rewrite dummy_size_nonneg.
  destruct (Z.leb_spec 0 (default 640 s)) as [Hn|Hn]; cbn [fst snd].
  2: { unfold record_call; cbn. rewrite <- !app_assoc. by eapply run_randn_fails. }
  destruct (randn_raises (dummy_size (default 640 s))) as [e|] eqn:Hr;
    cbn [fst snd].
  { unfold record_call; cbn. rewrite <- !app_assoc. by eapply run_randn_raises. }
  cbn [fs draws record_call next_draw].
  destruct (trace_export _ _ _ _ _) as [written printed|e written printed] eqn:Hex;
    cbn [fst snd]; unfold write_line, write_lines, write_files, record_call; cbn;
    rewrite <- !app_assoc.
  - by eapply run_returns.
  - by eapply run_export_fails.
Qed.

Lemma convert_to_onnx_run_eq p o s w r w' :
  convert_to_onnx p o s w = (r, w') -> run p o (default 640 s) w r w'.
Proof. intros H. generalize (convert_to_onnx_run p o s w). by rewrite H. Qed.

(** Conversely, each of the eight runs is what the function computes. *)
Lemma run_convert_to_onnx p o s w r w' :
  run p o (default 640 s) w r w' -> convert_to_onnx p o s w = (r, w').
Proof.
  intros Hrun. run_script.
  destruct Hrun;
    repeat match goal with
           | H : fs _ !! _ = _ |- _ => rewrite H; clear H
           | H : unpickle _ _ = _ |- _ => rewrite H; clear H
           | H : select_model _ = _ |- _ => rewrite H; clear H
           | H : eval_method _ = _ |- _ => rewrite H; clear H
           end;
    try reflexivity;
    rewrite ?dummy_size_nonneg;
    try (destruct (Z.leb_spec 0 (default 640 s)); [|lia]);
    try (destruct (Z.leb_spec 0 (default 640 s)); [lia|]);
    repeat match goal with
           | H : randn_raises _ = _ |- _ => rewrite H; clear H
           end;
    cbn [fs draws record_call next_draw];
    repeat match goal with
           | H : trace_export _ _ _ _ _ = _ |- _ => rewrite H; clear H
           end;
    unfold write_line, write_lines, write_files, record_call; cbn;
    rewrite <- ?app_assoc; reflexivity.
Qed.

(** The object chosen at line 18 is the one whose [eval] is called next. *)
Lemma convert_evaluates_selected p o s w obj w1 model :
  torch_load p "cpu" w = (Return obj, w1) ->
  select_model obj = Return model ->
  take 2 (calls_since w (convert_to_onnx p o s w).2) =
  [CallLoad p "cpu"; CallEval model].
Proof.
  intros Hload Hsel.
  destruct (torch_load_inv _ _ _ _ _ Hload) as (content & Hfs & Hun).
  destruct (convert_to_onnx p o s w) as [r w'] eqn:Hrun.
  apply convert_to_onnx_run_eq in Hrun.
  inversion Hrun; subst; same_run;
    by erewrite calls_since_app by reflexivity.
Qed.

Lemma select_model_dict items :
  select_model (PyDict items) =
  match items !! "model" with
  | Some v => Return v
  | None => Raise (KeyError "model")
  end.
Proof. reflexivity. Qed.

(** C1. Whatever object the checkpoint deserializes to, [convert_to_onnx]
    chooses the model as follows.  If the object is a dictionary holding a
    value under ["model"], the call goes on (eval, dummy input, export,
    message) with that value; if the object is not a dictionary, it goes on
    with the object itself.  In the dictionary case no other entry matters:
    adding, changing or deleting an entry under another key leaves the
    choice as it is.  The first statement holds of every instance of
    [dict], whatever its subclass. *)
Theorem convert_selects_model p o s w obj w1 :
  torch_load p "cpu" w = (Return obj, w1) ->
  (forall items v,
      obj = PyDict items -> items !! "model" = Some v ->
      convert_to_onnx p o s w = export_steps v o (default 640 s) w1 /\
      take 2 (calls_since w (convert_to_onnx p o s w).2) =
        [CallLoad p "cpu"; CallEval v]) /\
  (isinstance_dict obj = false ->
      convert_to_onnx p o s w = export_steps obj o (default 640 s) w1 /\
      take 2 (calls_since w (convert_to_onnx p o s w).2) =
        [CallLoad p "cpu"; CallEval obj]) /\
  (forall items k,
      obj = PyDict items -> k <> "model" ->
      (forall x, select_model (PyDict (<[k := x]> items)) = select_model obj) /\
      select_model (PyDict (delete k items)) = select_model obj) /\
  (forall items v,
      dict_entries obj = Some items -> items !! "model" = Some v ->
      convert_to_onnx p o s w = export_steps v o (default 640 s) w1 /\
      take 2 (calls_since w (convert_to_onnx p o s w).2) =
        [CallLoad p "cpu"; CallEval v]).
Proof.
  intros Hload. split; [|split; [|split]].
  - intros items v -> Hv.
    assert (select_model (PyDict items) = Return v) as Hsel
      by (by rewrite select_model_dict, Hv).
    split; [by eapply convert_selected | by eapply convert_evaluates_selected].
  - intros Hnd.
    assert (select_model obj = Return obj) as Hsel
      by (unfold select_model; by rewrite Hnd).
    split; [by eapply convert_selected | by eapply convert_evaluates_selected].
  - intros items k -> Hk. unfold select_model, getitem; cbn. split.
    + intros x. by rewrite lookup_insert_ne.
    + by rewrite lookup_delete_ne.
  - intros items v Hitems Hv.
    assert (select_model obj = Return v) as Hsel.
    { destruct obj; cbn in Hitems; simplify_eq;
        unfold select_model, getitem; cbn; by rewrite Hv. }
    split; [by eapply convert_selected | by eapply convert_evaluates_selected].
Qed.

(** C2. In every run of [convert_to_onnx] that returns, exactly one call of
    [torch.onnx.export] was made; its destination was the output path and
    its options were: opset version 12, the one input name [images], the one
    output name [output], and dynamic axes for exactly these two names,
    each marking axis 0, and no other axis, as dynamic. *)
Theorem export_call_options p o s w r w' :
  convert_to_onnx p o s w = (Return r, w') ->
  exists model args opts,
    List.filter is_export (calls_since w w') = [CallExport model args o opts] /\
    opts = export_options /\
    opset_version opts = 12 /\
    input_names opts = ["images"] /\
    output_names opts = ["output"] /\
    dom (dynamic_axes opts) = ({[ "images"; "output" ]} : gset string) /\
    forall name,
      name ∈ (input_names opts ++ output_names opts)%list ->
      exists axes,
        dynamic_axes opts !! name = Some axes /\
        dom axes = ({[ 0 ]} : gset Z) /\
        axes !! 0 = Some "batch".
Proof.
  intros Hrun. apply convert_to_onnx_run_eq in Hrun.
  inversion Hrun; subst.
  eexists _, _, _. split.
  { erewrite calls_since_app by reflexivity. reflexivity. }
  split; [reflexivity|].
  repeat split; try reflexivity.
  intros name Hin. exists {[ 0 := "batch" ]}.
  split; [|split; [apply dom_singleton_L | done]].
  cbn in Hin. apply elem_of_cons in Hin as [->|Hin]; [done|].
  apply list_elem_of_singleton in Hin as ->. done.
Qed.


(** C4. For every positive [img_size] (640 when the argument is left out),
    a call that gets as far as line 24 asks for its dummy input with
    [torch.randn(1, 3, img_size, img_size)].  When [torch.randn] returns,
    the tensor is of four dimensions, of shape
    [[1; 3; img_size; img_size]], drawn from the standard normal
    distribution, and it is the one handed to the export; no export call is
    ever made with another tensor.  Different sizes give different
    shapes. *)
Theorem synthetic_input_shape p o s w content obj m0 m1 :
  0 < default 640 s ->
  fs w !! p = Some content ->
  unpickle "cpu" content = Return obj ->
  select_model obj = Return m0 ->
  eval_method m0 = Return m1 ->
  let n := default 640 s in
  take 3 (calls_since w (convert_to_onnx p o s w).2) =
    [CallLoad p "cpu"; CallEval m0; CallRandn [1; 3; n; n]] /\
  (randn_raises [1; 3; n; n] = None ->
   exists t,
     take 4 (calls_since w (convert_to_onnx p o s w).2) =
       [CallLoad p "cpu"; CallEval m0; CallRandn [1; 3; n; n];
        CallExport m1 t o export_options] /\
     shape t = [1; 3; n; n] /\
     length (shape t) = 4%nat /\
     drawn_from t = StandardNormal) /\
  (forall model t f opts,
     CallExport model t f opts ∈ calls_since w (convert_to_onnx p o s w).2 ->
     shape t = [1; 3; n; n] /\
     length (shape t) = 4%nat /\
     drawn_from t = StandardNormal) /\
  default 640 (None : option Z) = 640 /\
  (forall n1 n2 : Z, n1 <> n2 -> dummy_size n1 <> dummy_size n2).
Proof.
  intros Hpos Hfs Hun Hsel Hev n.
  destruct (convert_to_onnx p o s w) as [r w'] eqn:Hrun.
  apply convert_to_onnx_run_eq in Hrun. fold n in Hrun. cbn [snd].
  split; [|split; [|split; [|split; [done|unfold dummy_size; congruence]]]].
  - inversion Hrun; subst; same_run; try lia;
      by erewrite calls_since_app by reflexivity.
  - intros Hreturns. change (randn_raises (dummy_size n) = None) in Hreturns.
    exists (Tensor (dummy_size n) StandardNormal (draws w)).
    split; [|done].
    inversion Hrun; subst; same_run; try lia;
      by erewrite calls_since_app by reflexivity.
  - intros model t f opts Hin.
    inversion Hrun; subst; erewrite calls_since_app in Hin by reflexivity;
      repeat (apply elem_of_cons in Hin as [Hin|Hin]; [discriminate || idtac|]);
      try (by apply elem_of_nil in Hin);
      by injection Hin as -> -> -> ->.
Qed.

Lemma main_short argv w :
  (length argv < 3)%nat ->
  main argv w =
  (Raise (SystemExit 1),
   World (fs w) (stdout w ++ [usage]) (draws w)
     (calls w ++ [CallPrint usage; CallExit 1])).
Proof.
  intros Hlen. unfold main, bind at 1.
  destruct (Nat.ltb_spec (length argv) 3) as [_|]; [|lia].
  unfold bind, print, sys_exit, write_line, record_call; cbn.
  by rewrite <- app_assoc.
Qed.


(** C6. A run of [convert_to_onnx] that returns, returns [None] and has
    made exactly one [print], of the line
    ["Model converted successfully: "] followed by the output path; that
    call is its last, it comes right after the export call, which
    completed, and its line is the last on standard output, after what the
    exporter itself printed.  A run that raises has made no [print]:
    standard output holds nothing new but what a failed export printed. *)
Theorem confirmation_message p o s w r w' :
  convert_to_onnx p o s w = (r, w') ->
  (forall v, r = Return v ->
     v = PyNone /\
     List.filter is_print (calls_since w w') =
       [CallPrint ("Model converted successfully: " ++ o)%string] /\
     last (stdout w') = Some ("Model converted successfully: " ++ o)%string /\
     exists before model args written printed,
       calls_since w w' =
         (before ++ [CallExport model args o export_options;
                     CallPrint ("Model converted successfully: " ++ o)%string])%list /\
       trace_export (fs w) o model args export_options = Exported written printed /\
       stdout w' =
         (stdout w ++ printed ++ [("Model converted successfully: " ++ o)%string])%list) /\
  (forall e, r = Raise e ->
     List.filter is_print (calls_since w w') = [] /\
     (stdout w' = stdout w \/
      exists model args written printed,
        trace_export (fs w) o model args export_options =
          ExportFailed e written printed /\
        stdout w' = (stdout w ++ printed)%list)).
Proof.
  intros Hrun. apply convert_to_onnx_run_eq in Hrun. split.
  - intros v ->. inversion Hrun; subst; cbn [stdout].
    erewrite calls_since_app by reflexivity.
    split; [done|]. split; [done|].
    split; [by rewrite !last_app|].
    exists [CallLoad p "cpu"; CallEval m0; CallRandn (dummy_size (default 640 s))].
    by eexists _, _, _, _.
  - intros e ->. inversion Hrun; subst; cbn [stdout];
      erewrite calls_since_app by reflexivity; (split; [done|]);
      first [by left | right; by eexists _, _, _, _].
Qed.

(** C7. [convert_to_onnx] handles no exception.  Whatever [torch.load]
    raises (a missing file, a file that does not unpickle), whatever the
    subscript raises, whatever [eval] raises and whatever the export raises
    is the outcome of the call, unchanged, and the world is left as the
    failing line left it: in particular whatever a failed export wrote
    stays where it was written.  The same holds of [torch.randn].  No line
    is attempted twice, and the
    entry point adds no handler of its own: the outcome of the script is
    the outcome of the call. *)
Theorem exceptions_propagate p o s w :
  (fs w !! p = None ->
     convert_to_onnx p o s w =
       (Raise (FileNotFoundError p),
        World (fs w) (stdout w) (draws w) (calls w ++ [CallLoad p "cpu"]))) /\
  (forall content e,
     fs w !! p = Some content ->
     unpickle "cpu" content = Raise e ->
     convert_to_onnx p o s w =
       (Raise e, World (fs w) (stdout w) (draws w) (calls w ++ [CallLoad p "cpu"]))) /\
  (forall content obj e,
     fs w !! p = Some content ->
     unpickle "cpu" content = Return obj ->
     select_model obj = Raise e ->
     convert_to_onnx p o s w =
       (Raise e, World (fs w) (stdout w) (draws w) (calls w ++ [CallLoad p "cpu"]))) /\
  (forall content obj m0 e,
     fs w !! p = Some content ->
     unpickle "cpu" content = Return obj ->
     select_model obj = Return m0 ->
     eval_method m0 = Raise e ->
     convert_to_onnx p o s w =
       (Raise e,
        World (fs w) (stdout w) (draws w)
          (calls w ++ [CallLoad p "cpu"; CallEval m0]))) /\
  (forall content obj m0 m1 e,
     fs w !! p = Some content ->
     unpickle "cpu" content = Return obj ->
     select_model obj = Return m0 ->
     eval_method m0 = Return m1 ->
     0 <= default 640 s ->
     randn_raises (dummy_size (default 640 s)) = Some e ->
     convert_to_onnx p o s w =
       (Raise e,
        World (fs w) (stdout w) (draws w)
          (calls w ++
           [CallLoad p "cpu"; CallEval m0;
            CallRandn (dummy_size (default 640 s))]))) /\
  (forall content obj m0 m1 e written printed,
     fs w !! p = Some content ->
     unpickle "cpu" content = Return obj ->
     select_model obj = Return m0 ->
     eval_method m0 = Return m1 ->
     0 <= default 640 s ->
     randn_raises (dummy_size (default 640 s)) = None ->
     trace_export (fs w) o m1
       (Tensor (dummy_size (default 640 s)) StandardNormal (draws w))
       export_options = ExportFailed e written printed ->
     convert_to_onnx p o s w =
       (Raise e,
        World (written ∪ fs w) (stdout w ++ printed) (S (draws w))
          (calls w ++
           [CallLoad p "cpu"; CallEval m0; CallRandn (dummy_size (default 640 s));
            CallExport m1
              (Tensor (dummy_size (default 640 s)) StandardNormal (draws w))
              o export_options]))) /\
  (length (List.filter is_load (calls_since w (convert_to_onnx p o s w).2)) = 1 /\
   length (List.filter is_export (calls_since w (convert_to_onnx p o s w).2)) <= 1)%nat /\
  (forall prog, main [prog; p; o] w = convert_to_onnx p o None w).
Proof.
  repeat split; intros; try (apply run_convert_to_onnx; by econstructor).
  all: destruct (convert_to_onnx p o s w) as [r w'] eqn:Hrun;
    apply convert_to_onnx_run_eq in Hrun;
    inversion Hrun; subst; cbn;
    erewrite calls_since_app by reflexivity; cbn; lia.
Qed.





(** C9. The test at line 18 is [isinstance(model, dict)].  An object that
    offers the mapping interface without being a [dict] is not unwrapped,
    even when it has an entry ["model"]: the call goes on with the whole
    object, whose [eval] is called next. *)
Theorem non_dict_mapping_not_unwrapped p o s w obj w1 :
  torch_load p "cpu" w = (Return obj, w1) ->
  is_mapping obj = true ->
  isinstance_dict obj = false ->
  select_model obj = Return obj /\
  convert_to_onnx p o s w = export_steps obj o (default 640 s) w1 /\
  take 2 (calls_since w (convert_to_onnx p o s w).2) =
    [CallLoad p "cpu"; CallEval obj].
Proof.
  intros Hload _ Hnd.
  assert (select_model obj = Return obj) as Hsel
    by (unfold select_model; by rewrite Hnd).
  split; [done|].
  split; [by eapply convert_selected | by eapply convert_evaluates_selected].
Qed.

(** [convert_to_onnx] never calls [sys.exit]. *)
Lemma convert_never_exits p o s w :
  List.filter is_exit (calls_since w (convert_to_onnx p o s w).2) = [].
Proof.
  destruct (convert_to_onnx p o s w) as [r w'] eqn:Hrun.
  apply convert_to_onnx_run_eq in Hrun.
  inversion Hrun; subst; cbn; by erewrite calls_since_app by reflexivity.
Qed.

(** C10. Run with more than two arguments after the program name, the
    script does not object: it converts with the first two as checkpoint
    path and output path and with image size 640, exactly as if the other
    arguments had not been given, and [sys.exit] is not called. *)
Theorem extra_arguments_ignored prog a1 a2 a3 rest w :
  main (prog :: a1 :: a2 :: a3 :: rest) w = convert_to_onnx a1 a2 (Some 640) w /\
  main (prog :: a1 :: a2 :: a3 :: rest) w = main [prog; a1; a2] w /\
  List.filter is_exit
    (calls_since w (main (prog :: a1 :: a2 :: a3 :: rest) w).2) = [].
Proof.
  split; [reflexivity|]. split; [reflexivity|].
  apply (convert_never_exits a1 a2 None w).
Qed.

End ConverterFacts.

(** * The theorems at work on the demo runtime *)

Section DemoRuns.

Import Demo.

Abbreviation convert := (convert_to_onnx (torch := demo_torch)).

Lemma convert_selects_model_witness :
  torch_load (torch := demo_torch) "ckpt.pt" "cpu" disk =
    (Return wrapped, record_call (CallLoad "ckpt.pt" "cpu") disk) /\
  convert "ckpt.pt" "out.onnx" None disk =
    export_steps (torch := demo_torch) (PyModule yolo) "out.onnx" 640
      (record_call (CallLoad "ckpt.pt" "cpu") disk) /\
  take 2 (calls_since disk (convert "ckpt.pt" "out.onnx" None disk).2) =
    [CallLoad "ckpt.pt" "cpu"; CallEval (PyModule yolo)].
Proof.
  assert (torch_load (torch := demo_torch) "ckpt.pt" "cpu" disk =
            (Return wrapped, record_call (CallLoad "ckpt.pt" "cpu") disk)) as Hload
    by (vm_compute; reflexivity).
  split; [exact Hload|].
  destruct (convert_selects_model (torch := demo_torch)
              "ckpt.pt" "out.onnx" None disk wrapped _ Hload) as [Hdict _].
  apply (Hdict _ (PyModule yolo) eq_refl). vm_compute; reflexivity.
Defined.

Lemma export_call_options_witness :
  (convert "model.pt" "model.onnx" None disk).1 = Return PyNone /\
  exists model args opts,
    List.filter is_export
      (calls_since disk (convert "model.pt" "model.onnx" None disk).2) =
      [CallExport model args "model.onnx" opts] /\
    opts = export_options /\
    opset_version opts = 12 /\
    input_names opts = ["images"] /\
    output_names opts = ["output"] /\
    dom (dynamic_axes opts) = ({[ "images"; "output" ]} : gset string) /\
    forall name,
      name ∈ (input_names opts ++ output_names opts)%list ->
      exists axes,
        dynamic_axes opts !! name = Some axes /\
        dom axes = ({[ 0 ]} : gset Z) /\
        axes !! 0 = Some "batch".
Proof.
  split; [vm_compute; reflexivity|].
  apply (export_call_options (torch := demo_torch)
           "model.pt" "model.onnx" None disk PyNone).
  vm_compute; reflexivity.
Defined.



Lemma synthetic_input_shape_witness :
  take 3 (calls_since disk (convert "model.pt" "model.onnx" (Some 320) disk).2) =
    [CallLoad "model.pt" "cpu"; CallEval (PyModule yolo);
     CallRandn [1; 3; 320; 320]] /\
  (exists t,
     take 4 (calls_since disk (convert "model.pt" "model.onnx" (Some 320) disk).2) =
       [CallLoad "model.pt" "cpu"; CallEval (PyModule yolo);
        CallRandn [1; 3; 320; 320];
        CallExport (PyModule (module_train false yolo)) t "model.onnx"
          export_options] /\
     shape t = [1; 3; 320; 320] /\
     length (shape t) = 4%nat /\
     drawn_from t = StandardNormal).
Proof.
  destruct (synthetic_input_shape (torch := demo_torch)
              "model.pt" "model.onnx" (Some 320) disk bare_pt
              (PyModule yolo) (PyModule yolo) (PyModule (module_train false yolo)))
    as (Hcalls & Hreturns & _).
  - cbn. lia.
  - vm_compute; reflexivity.
  - reflexivity.
  - reflexivity.
  - reflexivity.
  - split; [exact Hcalls | exact (Hreturns eq_refl)].
Defined.


Lemma confirmation_message_witness :
  (convert_to_onnx (torch := Corner.corner_torch)
     "net.pt" "model.onnx" None Corner.disk).1 = Return PyNone /\
  stdout (convert_to_onnx (torch := Corner.corner_torch)
            "net.pt" "model.onnx" None Corner.disk).2 =
    ["exporting to ONNX"; "Model converted successfully: model.onnx"] /\
  last (stdout (convert_to_onnx (torch := Corner.corner_torch)
                  "net.pt" "model.onnx" None Corner.disk).2) =
    Some "Model converted successfully: model.onnx" /\
  (convert "grid.pt" "model.onnx" None disk).1 =
    Raise (RuntimeError "unsupported operator") /\
  List.filter is_print
    (calls_since disk (convert "grid.pt" "model.onnx" None disk).2) = [].
Proof.
  destruct (convert_to_onnx (torch := Corner.corner_torch)
              "net.pt" "model.onnx" None Corner.disk) as [r w'] eqn:Hok.
  destruct (convert "grid.pt" "model.onnx" None disk) as [r2 w2] eqn:Hko.
  assert (r = Return PyNone) as Hr
    by (apply (f_equal fst) in Hok; vm_compute in Hok; congruence).
  assert (r2 = Raise (RuntimeError "unsupported operator")) as Hr2
    by (apply (f_equal fst) in Hko; vm_compute in Hko; congruence).
  destruct (confirmation_message (torch := Corner.corner_torch) _ _ _ _ _ _ Hok)
    as (Hret & _).
  destruct (confirmation_message (torch := demo_torch) _ _ _ _ _ _ Hko)
    as (_ & Hraise).
  destruct (Hret _ Hr) as (_ & _ & Hlast & _).
  destruct (Hraise _ Hr2) as (Hnone & _).
  cbn [fst snd]. split; [exact Hr|]. split.
  { apply (f_equal snd) in Hok. cbn [snd] in Hok. subst w'.
    vm_compute; reflexivity. }
  split; [exact Hlast|]. split; [exact Hr2|exact Hnone].
Defined.

Lemma exceptions_propagate_witness :
  convert "nowhere.pt" "out.onnx" None disk =
    (Raise (FileNotFoundError "nowhere.pt"),
     World (fs disk) [] 0 [CallLoad "nowhere.pt" "cpu"]) /\
  convert "headless.pt" "out.onnx" None disk =
    (Raise (KeyError "model"),
     World (fs disk) [] 0 [CallLoad "headless.pt" "cpu"]) /\
  convert "proxy.pt" "out.onnx" None disk =
    (Raise (AttributeError "eval"),
     World (fs disk) [] 0
       [CallLoad "proxy.pt" "cpu";
        CallEval (PyMappingProxy {[ "model" := PyModule yolo ]})]) /\
  convert "grid.pt" "out.onnx" None disk =
    (Raise (RuntimeError "unsupported operator"),
     World ({[ "out.onnx" := truncated_graph ]} ∪ fs disk) [] 1
       [CallLoad "grid.pt" "cpu"; CallEval (PyModule grid_sampler);
        CallRandn [1; 3; 640; 640];
        CallExport (PyModule (module_train false grid_sampler))
          (Tensor [1; 3; 640; 640] StandardNormal 0) "out.onnx" export_options]) /\
  convert_to_onnx (torch := Corner.corner_torch)
    "net.pt" "out.onnx" (Some (2 ^ 31)) Corner.disk =
    (Raise (RuntimeError "not enough memory"),
     World (fs Corner.disk) [] 0
       [CallLoad "net.pt" "cpu"; CallEval (PyModule Corner.net);
        CallRandn [1; 3; 2 ^ 31; 2 ^ 31]]).
Proof.
  split; [|split; [|split; [|split]]].
  - apply (proj1 (exceptions_propagate (torch := demo_torch)
                    "nowhere.pt" "out.onnx" None disk)).
    vm_compute; reflexivity.
  - destruct (exceptions_propagate (torch := demo_torch)
                "headless.pt" "out.onnx" None disk) as (_ & _ & Hsel & _).
    apply (Hsel headless_pt (PyDict headless)); vm_compute; reflexivity.
  - destruct (exceptions_propagate (torch := demo_torch)
                "proxy.pt" "out.onnx" None disk) as (_ & _ & _ & Hev & _).
    apply (Hev proxy_pt (PyMappingProxy {[ "model" := PyModule yolo ]})
             (PyMappingProxy {[ "model" := PyModule yolo ]}));
      vm_compute; reflexivity.
  - destruct (exceptions_propagate (torch := demo_torch)
                "grid.pt" "out.onnx" None disk) as (_ & _ & _ & _ & _ & Hex & _).
    apply (Hex untraceable_pt (PyModule grid_sampler) (PyModule grid_sampler)
             (PyModule (module_train false grid_sampler))
             (RuntimeError "unsupported operator")
             {[ "out.onnx" := truncated_graph ]} []);
      try (vm_compute; reflexivity).
    cbn. lia.
  - destruct (exceptions_propagate (torch := Corner.corner_torch)
                "net.pt" "out.onnx" (Some (2 ^ 31)) Corner.disk)
      as (_ & _ & _ & _ & Hrandn & _).
    apply (Hrandn [x10] (PyModule Corner.net) (PyModule Corner.net)
             (PyModule (module_train false Corner.net)));
      try (vm_compute; reflexivity).
    cbn. lia.
Defined.



Lemma non_dict_mapping_not_unwrapped_witness :
  is_mapping module_dict = true /\
  isinstance_dict module_dict = false /\
  getitem module_dict "model" = Return (PyModule yolo) /\
  select_model module_dict = Return module_dict /\
  convert "dict.pt" "out.onnx" None disk =
    export_steps (torch := demo_torch) module_dict "out.onnx" 640
      (record_call (CallLoad "dict.pt" "cpu") disk) /\
  take 2 (calls_since disk (convert "dict.pt" "out.onnx" None disk).2) =
    [CallLoad "dict.pt" "cpu"; CallEval module_dict].
Proof.
  split; [reflexivity|]. split; [reflexivity|]. split; [reflexivity|].
  apply (non_dict_mapping_not_unwrapped (torch := demo_torch)
           "dict.pt" "out.onnx" None disk module_dict
           (record_call (CallLoad "dict.pt" "cpu") disk)).
  - vm_compute; reflexivity.
  - reflexivity.
  - reflexivity.
Defined.

End DemoRuns.

(** * Further properties of the script *)

Section ScriptFacts.

Context {torch : TorchRuntime}.

Implicit Types (p o : string) (w : world) (e : pyexc) (obj model : pyobj).

(** Two facts about the same lookup or the same call of torch agree. *)
Ltac agree :=
  repeat match goal with
         | H1 : ?x = ?a, H2 : ?x = ?b |- _ => rewrite H1 in H2; simplify_eq
         end.

(** Induction on a module tree, with the hypothesis for every child. *)
Lemma nn_module_children_ind (P : nn_module -> Prop) :
  (forall cls training children,
      Forall (fun nc => P nc.2) children -> P (NNModule cls training children)) ->
  forall m, P m.
Proof.
  intros step. fix IH 1. intros [cls training children]. apply step.
  induction children as [|nc children IHchildren]; constructor;
    [apply IH | exact IHchildren].
Qed.

Lemma module_train_all_inference m : all_inference (module_train false m) = true.
Proof.
  induction m as [cls training children IH] using nn_module_children_ind.
  cbn. induction IH as [|nc children Hnc _ IHchildren]; cbn; [done|].
  by rewrite Hnc, IHchildren.
Qed.

Lemma module_train_twice mode mode' m :
  module_train mode (module_train mode' m) = module_train mode m.
Proof.
  induction m as [cls training children IH] using nn_module_children_ind.
  cbn. f_equal. induction IH as [|nc children Hnc _ IHchildren]; cbn; [done|].
  by rewrite Hnc, IHchildren.
Qed.

Lemma eval_method_module obj m1 :
  eval_method obj = Return m1 ->
  exists m, obj = PyModule m /\ m1 = PyModule (module_train false m).
Proof. destruct obj; cbn; intros H; simplify_eq. by eexists. Qed.

Lemma eval_method_non_module obj :
  is_module obj = false -> eval_method obj = Raise (AttributeError "eval").
Proof. by destruct obj. Qed.

(** X1. The guard [len(sys.argv) < 3] decides everything in the entry
    point.  With three or more entries both subscripts are in range and the
    script is the call [convert_to_onnx(sys.argv[1], sys.argv[2])]; and
    [sys.exit(1)] is called exactly when there are fewer than three. *)
Theorem main_dispatch argv w :
  ((3 <= length argv)%nat ->
     exists p o,
       argv !! 1%nat = Some p /\ argv !! 2%nat = Some o /\
       main argv w = convert_to_onnx p o None w) /\
  (List.filter is_exit (calls_since w (main argv w).2) = [CallExit 1] <->
   (length argv < 3)%nat).
Proof.
  split.
  - intros Hlen. destruct argv as [|prog [|p [|o rest]]]; cbn in Hlen; try lia.
    by exists p, o.
  - split.
    + intros Hexit. destruct (Nat.lt_ge_cases (length argv) 3) as [|Hlen]; [done|].
      destruct argv as [|prog [|p [|o rest]]]; cbn in Hlen; try lia.
      change (main (prog :: p :: o :: rest) w)
        with (convert_to_onnx p o None w) in Hexit.
      by rewrite convert_never_exits in Hexit.
    + intros Hlen. rewrite (main_short argv w Hlen). cbn.
      by erewrite calls_since_app by reflexivity.
Qed.

(** X2. Whatever [torch.onnx.export] is called with has been through
    [eval()] first: the model of every export call is a module, it is the
    module whose [eval] was called at line 21 with all its [training] flags
    cleared, down to the last descendant, and it differs from that module
    in [training] flags only. *)
Theorem exported_model_in_inference_mode p o s w r w' model args f opts :
  convert_to_onnx p o s w = (r, w') ->
  CallExport model args f opts ∈ calls_since w w' ->
  exists m,
    CallEval (PyModule m) ∈ calls_since w w' /\
    model = PyModule (module_train false m) /\
    all_inference (module_train false m) = true /\
    forall mode, module_train mode (module_train false m) = module_train mode m.
Proof.
  intros Hrun Hin. apply convert_to_onnx_run_eq in Hrun.
  inversion Hrun; subst; erewrite calls_since_app in * by reflexivity;
    repeat (apply elem_of_cons in Hin as [Hin|Hin]; [discriminate || idtac|]);
    try by apply elem_of_nil in Hin.
  all: match goal with
       | H : eval_method _ = Return _ |- _ =>
           apply eval_method_module in H as (m & -> & ->)
       end.
  all: injection Hin as -> -> -> ->.
  all: exists m; split; [set_solver|].
  all: split; [done|]; split;
    [apply module_train_all_inference | intros; apply module_train_twice].
Qed.

(** X3. The calls of a run are made in the order of the source and none is
    made twice: what a run adds to the record is an initial part of load,
    eval, randn, export, print, and the record it found is kept.  The run
    returns exactly when all five calls were made. *)
Theorem calls_follow_script p o s w r w' :
  convert_to_onnx p o s w = (r, w') ->
  exists m0 m1,
    calls w' = (calls w ++ calls_since w w')%list /\
    calls_since w w' `prefix_of`
      script_calls p o (default 640 s) (draws w) m0 m1 /\
    ((exists v, r = Return v) <->
     calls_since w w' = script_calls p o (default 640 s) (draws w) m0 m1).
Proof.
  intros Hrun. apply convert_to_onnx_run_eq in Hrun.
  inversion Hrun; subst; cbn [calls];
    erewrite calls_since_app by reflexivity.
  1-3: exists PyNone, PyNone.
  4: exists m0, PyNone.
  5-8: exists m0, m1.
  all: split; [done|]; split; [by eexists|].
  all: split; [intros [v Hv]; discriminate Hv || reflexivity|].
  all: first [discriminate | by eexists].
Qed.

(** X5. The unwrapping is one level deep and nothing checks what it
    yields.  When the chosen object is not a module (the ["model"] entry of
    a dictionary is itself a dictionary, or the checkpoint is a bare
    number), the call stops at line 21 with [AttributeError] for [eval]:
    no tensor is drawn, no export is attempted and the file system is as it
    was. *)
Theorem non_module_fails_at_eval p o s w content obj model :
  fs w !! p = Some content ->
  unpickle "cpu" content = Return obj ->
  select_model obj = Return model ->
  is_module model = false ->
  convert_to_onnx p o s w =
    (Raise (AttributeError "eval"),
     World (fs w) (stdout w) (draws w)
       (calls w ++ [CallLoad p "cpu"; CallEval model])) /\
  (forall items inner,
     obj = PyDict items -> items !! "model" = Some (PyDict inner) ->
     model = PyDict inner).
Proof.
  intros Hfs Hun Hsel Hmod. split.
  - apply run_convert_to_onnx. eapply run_eval_fails; [done..|].
    by apply eval_method_non_module.
  - intros items inner -> Hinner. unfold select_model, getitem in Hsel.
    cbn in Hsel. rewrite Hinner in Hsel. by simplify_eq.
Qed.

(** X6. [img_size] is not validated by the script.  For a checkpoint that
    loads and switches to inference mode, the first thing done with the
    size is the call [torch.randn(1, 3, img_size, img_size)], whatever the
    size.  A negative size makes that call raise; so does any other size
    [torch.randn] refuses.  In both cases the call stops there, after
    [eval] and before any export, with the file system as it was.  A size
    from 0 up that [torch.randn] accepts, 0 included, goes on to the
    export. *)
Theorem img_size_not_validated p o (n : Z) w content obj m0 m1 :
  fs w !! p = Some content ->
  unpickle "cpu" content = Return obj ->
  select_model obj = Return m0 ->
  eval_method m0 = Return m1 ->
  take 3 (calls_since w (convert_to_onnx p o (Some n) w).2) =
    [CallLoad p "cpu"; CallEval m0; CallRandn [1; 3; n; n]] /\
  (n < 0 ->
     exists msg,
       convert_to_onnx p o (Some n) w =
         (Raise (RuntimeError msg),
          World (fs w) (stdout w) (draws w)
            (calls w ++ [CallLoad p "cpu"; CallEval m0; CallRandn [1; 3; n; n]]))) /\
  (forall e,
     0 <= n -> randn_raises [1; 3; n; n] = Some e ->
     convert_to_onnx p o (Some n) w =
       (Raise e,
        World (fs w) (stdout w) (draws w)
          (calls w ++ [CallLoad p "cpu"; CallEval m0; CallRandn [1; 3; n; n]]))) /\
  (0 <= n -> randn_raises [1; 3; n; n] = None ->
     take 4 (calls_since w (convert_to_onnx p o (Some n) w).2) =
       [CallLoad p "cpu"; CallEval m0; CallRandn [1; 3; n; n];
        CallExport m1 (Tensor [1; 3; n; n] StandardNormal (draws w)) o
          export_options]).
Proof.
  intros Hfs Hun Hsel Hev. split; [|split; [|split]].
  - destruct (convert_to_onnx p o (Some n) w) as [r w'] eqn:Hrun.
    apply convert_to_onnx_run_eq in Hrun. cbn [default from_option id] in Hrun.
    inversion Hrun; subst; agree;
      by erewrite calls_since_app by reflexivity.
  - intros Hneg. eexists. apply run_convert_to_onnx.
    by eapply run_randn_fails.
  - intros e Hpos Hraises. apply run_convert_to_onnx.
    by eapply run_randn_raises.
  - intros Hpos Hreturns. change (randn_raises (dummy_size n) = None) in Hreturns.
    destruct (convert_to_onnx p o (Some n) w) as [r w'] eqn:Hrun.
    apply convert_to_onnx_run_eq in Hrun. cbn [default from_option id] in Hrun.
    inversion Hrun; subst; agree; try lia;
      by erewrite calls_since_app by reflexivity.
Qed.

(** X7. The script ends normally only after a whole conversion: when the
    entry point returns, there were at least two arguments, the value is
    [None], the last call made is the [print] of
    ["Model converted successfully: "] followed by [sys.argv[2]], and that
    line is the last on standard output, after everything that was there
    before. *)
Theorem main_returns_after_conversion argv w v w' :
  main argv w = (Return v, w') ->
  (3 <= length argv)%nat /\
  v = PyNone /\
  exists p o,
    argv !! 1%nat = Some p /\ argv !! 2%nat = Some o /\
    last (calls w') = Some (CallPrint ("Model converted successfully: " ++ o)) /\
    last (stdout w') = Some ("Model converted successfully: " ++ o) /\
    stdout w `prefix_of` stdout w'.
Proof.
  intros Hmain.
  destruct (Nat.lt_ge_cases (length argv) 3) as [Hlen|Hlen].
  { rewrite (main_short argv w Hlen) in Hmain. discriminate. }
  split; [done|].
  destruct argv as [|prog [|p [|o rest]]]; cbn in Hlen; try lia.
  change (convert_to_onnx p o None w = (Return v, w')) in Hmain.
  apply convert_to_onnx_run_eq in Hmain.
  inversion Hmain; subst. split; [done|].
  exists p, o. cbn [calls stdout]. split; [done|]. split; [done|].
  split; [by rewrite last_app|]. split; [by rewrite !last_app|].
  by eexists.
Qed.

End ScriptFacts.

(** * The further properties at work *)

Section EdgeRuns.

Import Edge.

Abbreviation script := (main (torch := edge_torch)).
Abbreviation conversion := (convert_to_onnx (torch := edge_torch)).

Lemma main_dispatch_witness :
  (exists p o,
     ["convert_model.py"; "net.pt"; "net.onnx"; "--img"; "320"] !! 1%nat = Some p /\
     ["convert_model.py"; "net.pt"; "net.onnx"; "--img"; "320"] !! 2%nat = Some o /\
     script ["convert_model.py"; "net.pt"; "net.onnx"; "--img"; "320"] disk =
       conversion p o None disk) /\
  List.filter is_exit (calls_since disk (script ["convert_model.py"] disk).2) =
    [CallExit 1].
Proof.
  split.
  - apply (proj1 (main_dispatch (torch := edge_torch)
                    ["convert_model.py"; "net.pt"; "net.onnx"; "--img"; "320"] disk)).
    cbn. lia.
  - apply (proj2 (main_dispatch (torch := edge_torch) ["convert_model.py"] disk)).
    cbn. lia.
Defined.

Lemma exported_model_in_inference_mode_witness :
  exists m,
    CallEval (PyModule m) ∈ calls_since disk (conversion "net.pt" "net.onnx" None disk).2 /\
    PyModule (module_train false backbone) = PyModule (module_train false m) /\
    all_inference (module_train false m) = true /\
    forall mode, module_train mode (module_train false m) = module_train mode m.
Proof.
  destruct (conversion "net.pt" "net.onnx" None disk) as [r w'] eqn:Hrun.
  apply (exported_model_in_inference_mode (torch := edge_torch)
           "net.pt" "net.onnx" None disk r w'
           (PyModule (module_train false backbone))
           (Tensor [1; 3; 640; 640] StandardNormal 4) "net.onnx" export_options Hrun).
  apply (f_equal snd) in Hrun. cbn [snd] in Hrun. subst w'.
  assert (calls_since disk (conversion "net.pt" "net.onnx" None disk).2 =
          script_calls "net.pt" "net.onnx" 640 4 (PyModule backbone)
            (PyModule (module_train false backbone))) as ->
    by (vm_compute; reflexivity).
  unfold script_calls, dummy_size. set_solver.
Defined.

Lemma calls_follow_script_witness :
  (conversion "seven.pt" "net.onnx" None disk).1 = Raise (AttributeError "eval") /\
  exists m0 m1,
    calls (conversion "seven.pt" "net.onnx" None disk).2 =
      (calls disk ++
       calls_since disk (conversion "seven.pt" "net.onnx" None disk).2)%list /\
    calls_since disk (conversion "seven.pt" "net.onnx" None disk).2 `prefix_of`
      script_calls "seven.pt" "net.onnx" 640 4 m0 m1 /\
    ((exists v, (conversion "seven.pt" "net.onnx" None disk).1 = Return v) <->
     calls_since disk (conversion "seven.pt" "net.onnx" None disk).2 =
       script_calls "seven.pt" "net.onnx" 640 4 m0 m1).
Proof.
  split; [vm_compute; reflexivity|].
  apply (calls_follow_script (torch := edge_torch) "seven.pt" "net.onnx" None disk).
  apply surjective_pairing.
Defined.

Lemma non_module_fails_at_eval_witness :
  conversion "nested.pt" "net.onnx" None disk =
    (Raise (AttributeError "eval"),
     World (fs disk) (stdout disk) (draws disk)
       (calls disk ++ [CallLoad "nested.pt" "cpu";
                       CallEval (PyDict {[ "model" := PyModule backbone ]})])) /\
  (forall items inner,
     nested = PyDict items -> items !! "model" = Some (PyDict inner) ->
     PyDict {[ "model" := PyModule backbone ]} = PyDict inner).
Proof.
  apply (non_module_fails_at_eval (torch := edge_torch)
           "nested.pt" "net.onnx" None disk [x0b] nested
           (PyDict {[ "model" := PyModule backbone ]})).
  - vm_compute; reflexivity.
  - reflexivity.
  - reflexivity.
  - reflexivity.
Defined.

Lemma img_size_not_validated_witness :
  (exists msg,
     conversion "net.pt" "net.onnx" (Some (-1)) disk =
       (Raise (RuntimeError msg),
        World (fs disk) (stdout disk) (draws disk)
          (calls disk ++ [CallLoad "net.pt" "cpu"; CallEval (PyModule backbone);
                          CallRandn [1; 3; -1; -1]]))) /\
  take 4 (calls_since disk (conversion "net.pt" "net.onnx" (Some 0) disk).2) =
    [CallLoad "net.pt" "cpu"; CallEval (PyModule backbone); CallRandn [1; 3; 0; 0];
     CallExport (PyModule (module_train false backbone))
       (Tensor [1; 3; 0; 0] StandardNormal (draws disk)) "net.onnx" export_options] /\
  convert_to_onnx (torch := Corner.corner_torch)
    "net.pt" "net.onnx" (Some (2 ^ 31)) Corner.disk =
    (Raise (RuntimeError "not enough memory"),
     World (fs Corner.disk) (stdout Corner.disk) (draws Corner.disk)
       (calls Corner.disk ++
        [CallLoad "net.pt" "cpu"; CallEval (PyModule Corner.net);
         CallRandn [1; 3; 2 ^ 31; 2 ^ 31]])).
Proof.
  assert (fs disk !! "net.pt" = Some [x0a]) as Hfs by (vm_compute; reflexivity).
  assert (fs Corner.disk !! "net.pt" = Some [x10]) as Hfs'
    by (vm_compute; reflexivity).
  split; [|split].
  - destruct (img_size_not_validated (torch := edge_torch)
                "net.pt" "net.onnx" (-1) disk [x0a] (PyModule backbone)
                (PyModule backbone) (PyModule (module_train false backbone))
                Hfs eq_refl eq_refl eq_refl) as (_ & Hneg & _).
    apply Hneg. lia.
  - destruct (img_size_not_validated (torch := edge_torch)
                "net.pt" "net.onnx" 0 disk [x0a] (PyModule backbone)
                (PyModule backbone) (PyModule (module_train false backbone))
                Hfs eq_refl eq_refl eq_refl) as (_ & _ & _ & Hzero).
    apply Hzero; [lia|reflexivity].
  - destruct (img_size_not_validated (torch := Corner.corner_torch)
                "net.pt" "net.onnx" (2 ^ 31) Corner.disk [x10] (PyModule Corner.net)
                (PyModule Corner.net) (PyModule (module_train false Corner.net))
                Hfs' eq_refl eq_refl eq_refl) as (_ & _ & Hbig & _).
    apply Hbig; [lia|vm_compute; reflexivity].
Defined.

Lemma main_returns_after_conversion_witness :
  exists p o,
    ["convert_model.py"; "net.pt"; "net.onnx"] !! 1%nat = Some p /\
    ["convert_model.py"; "net.pt"; "net.onnx"] !! 2%nat = Some o /\
    last (calls (script ["convert_model.py"; "net.pt"; "net.onnx"] disk).2) =
      Some (CallPrint ("Model converted successfully: " ++ o)) /\
    last (stdout (script ["convert_model.py"; "net.pt"; "net.onnx"] disk).2) =
      Some ("Model converted successfully: " ++ o) /\
    stdout disk `prefix_of`
      stdout (script ["convert_model.py"; "net.pt"; "net.onnx"] disk).2.
Proof.
  assert (script ["convert_model.py"; "net.pt"; "net.onnx"] disk =
          (Return PyNone, (script ["convert_model.py"; "net.pt"; "net.onnx"] disk).2))
    as Hmain by (vm_compute; reflexivity).
  destruct (main_returns_after_conversion (torch := edge_torch) _ _ _ _ Hmain)
    as (_ & _ & Hrest).
  exact Hrest.
Defined.

End EdgeRuns.
